(** * RunRecipe: the recipe-instruction component of the tutorial site

    A shallow embedding of [site/src/components/RunRecipe/index.jsx].
    The component is one function from its props to a React element
    tree: a [Tabs] element with one [TabItem] per way of running an
    OpenRewrite recipe.  The embedding keeps the source's local
    constants ([wrapperName], [description], [modConfigRecipes],
    [mavenCli], [mavenPom], ...) as definitions of the same name. *)

From Stdlib Require Import List NArith Bool Ascii String Lia.
Import ListNotations.

Local Open Scope list_scope.
Local Open Scope N_scope.

(** ** JavaScript strings

    A JavaScript string is a sequence of UTF-16 code units.  A regular
    expression without the [u] flag, [String.prototype.split] and the
    template literals of the component all work on code units. *)

Module JsString.

Definition codeunit := N.
Definition jsstring := list codeunit.

(** A string literal of the source (all of them are ASCII). *)
Fixpoint lit (s : string) : jsstring :=
  match s with
  | EmptyString => []
  | String c s' => N_of_ascii c :: lit s'
  end.
Arguments lit s%_string.

Definition dquote : jsstring := [34].
Definition newline : jsstring := [10].
Definition colon : codeunit := 58.

(** [join sep ls]: [ls.join(sep)]. *)
Fixpoint join (sep : jsstring) (ls : list jsstring) : jsstring :=
  match ls with
  | [] => []
  | [l] => l
  | l :: ls' => l ++ sep ++ join sep ls'
  end.

(** A template literal that spans several source lines, given line by line. *)
Definition lines (ls : list jsstring) : jsstring := join newline ls.

(** The character class [\s] of ECMAScript: WhiteSpace and LineTerminator. *)
Definition is_whitespace (c : codeunit) : bool :=
  (c =? 0x09) || (c =? 0x0A) || (c =? 0x0B) || (c =? 0x0C) || (c =? 0x0D)
  || (c =? 0x20) || (c =? 0xA0) || (c =? 0x1680)
  || ((0x2000 <=? c) && (c <=? 0x200A))
  || (c =? 0x2028) || (c =? 0x2029) || (c =? 0x202F) || (c =? 0x205F)
  || (c =? 0x3000) || (c =? 0xFEFF).

(** [replace_runs cls r s]: [s.replace(/[cls]+/g, r)] for a replacement
    [r] without [$] patterns.  The scan goes left to right; [in_run]
    tells that the code unit before the current one belongs to a match
    that is still open, so a maximal run is replaced once. *)
Fixpoint replace_runs_from (cls : codeunit -> bool) (r : jsstring)
    (in_run : bool) (s : jsstring) : jsstring :=
  match s with
  | [] => []
  | c :: s' =>
      if cls c then
        if in_run then replace_runs_from cls r true s'
        else r ++ replace_runs_from cls r true s'
      else c :: replace_runs_from cls r false s'
  end.

Definition replace_runs (cls : codeunit -> bool) (r s : jsstring) : jsstring :=
  replace_runs_from cls r false s.

(** [split_on sep s]: [s.split(sep)] for a separator of one code unit.
    The result is never empty: a string without separator is returned
    whole, as the only element. *)
Fixpoint split_on (sep : codeunit) (s : jsstring) : list jsstring :=
  match s with
  | [] => [[]]
  | c :: s' =>
      if c =? sep then [] :: split_on sep s'
      else match split_on sep s' with
           | seg :: rest => (c :: seg) :: rest
           | [] => [[c]]
           end
  end.

(** A value that is a string or [undefined]. *)
Definition jsvalue := option jsstring.
Definition undefined : jsvalue := None.

(** ToString, as a template literal applies it to [${v}]. *)
Definition to_string (v : jsvalue) : jsstring :=
  match v with
  | Some s => s
  | None => lit "undefined"
  end.

(** ToBoolean on a string or [undefined]: only the empty string and
    [undefined] are falsy. *)
Definition truthy (v : jsvalue) : bool :=
  match v with
  | Some (_ :: _) => true
  | _ => false
  end.

(** [a || b], with [b] a string. *)
Definition js_or (a : jsvalue) (b : jsstring) : jsstring :=
  match a with
  | Some s => if truthy a then s else b
  | None => b
  end.

(** [x] occurs in [s] as a contiguous substring. *)
Definition infix (x s : jsstring) : Prop :=
  exists pre post, s = pre ++ x ++ post.

Fixpoint prefixb (x s : jsstring) : bool :=
  match x, s with
  | [], _ => true
  | a :: x', b :: s' => (a =? b) && prefixb x' s'
  | _ :: _, [] => false
  end.

(** [s.includes(x)] *)
Fixpoint infixb (x s : jsstring) : bool :=
  prefixb x s ||
  match s with
  | [] => false
  | _ :: s' => infixb x s'
  end.

End JsString.
Import JsString.

(** ** Completions

    A call returns a value or throws. *)

Record JsError : Type := { error_name : jsstring }.

Inductive completion (A : Type) : Type :=
| Normal (v : A)
| Throw (e : JsError).
Arguments Normal {A} v.
Arguments Throw {A} e.

(** ** React elements

    What a JSX expression evaluates to, after the JSX rules for text:
    a text that spans several lines has its lines trimmed and joined
    by one space, lines of white space only are dropped, and [&amp;]
    stands for [&]. *)

Inductive Tag : Type :=
| T_Tabs | T_TabItem | T_CodeBlock | T_Fragment
| T_p | T_a | T_ol | T_li | T_code.

#[warnings="-register-all"]
Inductive jsx : Type :=
| Text (s : jsstring)
| Elem (tag : Tag) (props : list (string * jsstring)) (children : list jsx).

Definition tag_eqb (t u : Tag) : bool :=
  match t, u with
  | T_Tabs, T_Tabs | T_TabItem, T_TabItem | T_CodeBlock, T_CodeBlock
  | T_Fragment, T_Fragment | T_p, T_p | T_a, T_a | T_ol, T_ol
  | T_li, T_li | T_code, T_code => true
  | _, _ => false
  end.

(** The value of a prop of an element ([undefined] when it is not set). *)
Fixpoint prop (name : string) (props : list (string * jsstring)) : jsvalue :=
  match props with
  | [] => undefined
  | (k, v) :: props' => if String.eqb k name then Some v else prop name props'
  end.

(** The text of an element, as [Node.textContent] gives it once rendered. *)
Fixpoint textContent (t : jsx) : jsstring :=
  match t with
  | Text s => s
  | Elem _ _ children => List.concat (map textContent children)
  end.

(** The contents of the code blocks of an element, in document order. *)
Fixpoint snippets (t : jsx) : list jsstring :=
  match t with
  | Text _ => []
  | Elem tag _ children =>
      if tag_eqb tag T_CodeBlock then [List.concat (map textContent children)]
      else List.concat (map snippets children)
  end.

(** One tab of the rendered output. *)
Record Variant : Type := {
  value : jsvalue;
  label : jsvalue;
  body : list jsx
}.

Definition variant_of (t : jsx) : list Variant :=
  match t with
  | Elem T_TabItem props children =>
      [ {| value := prop "value" props;
           label := prop "label" props;
           body := children |} ]
  | _ => []
  end.

(** The tabs of a [Tabs] element, in order. *)
Definition variants (t : jsx) : list Variant :=
  match t with
  | Elem T_Tabs _ children => List.concat (map variant_of children)
  | _ => []
  end.

Definition body_text (v : Variant) : jsstring :=
  List.concat (map textContent (body v)).

Definition body_snippets (v : Variant) : list jsstring :=
  List.concat (map snippets (body v)).

(** [v]'s body contains the text [x]. *)
Definition contains (v : Variant) (x : jsstring) : Prop :=
  infix x (body_text v).

(** ** The component *)

(** The props of [RunRecipe].  The three required props are strings;
    the optional ones are [undefined] when the page does not set them. *)
Record Props : Type := {
  recipeName : jsstring;
  recipeDisplayName : jsstring;
  artifact : jsstring;
  intellijWrapperName : jsvalue;
  intellijDescription : jsvalue;
  requiresYamlInstall : option bool
}.

(** The default of the parameter list: [requiresYamlInstall = false]. *)
Definition or_false (b : option bool) : bool :=
  match b with
  | Some b => b
  | None => false
  end.

(** [`com.github.timtebeek.${recipeDisplayName.replace(/\s+/g, '')}`] *)
Definition deriveWrapperName (recipeDisplayName : jsstring) : jsstring :=
  lit "com.github.timtebeek." ++ replace_runs is_whitespace [] recipeDisplayName.

(** [`${recipeDisplayName} and apply best practices to assertions.`] *)
Definition deriveDescription (recipeDisplayName : jsstring) : jsstring :=
  recipeDisplayName ++ lit " and apply best practices to assertions.".

Definition wrapperName (props : Props) : jsstring :=
  js_or (intellijWrapperName props) (deriveWrapperName (recipeDisplayName props)).

Definition description (props : Props) : jsstring :=
  js_or (intellijDescription props) (deriveDescription (recipeDisplayName props)).

(** [const [groupId, artifactId] = artifact.split(':')]: the first two
    elements of the array, [undefined] where the array is too short. *)
Definition splitArtifact (artifact : jsstring) : completion (jsvalue * jsvalue) :=
  let parts := split_on colon artifact in
  Normal (nth_error parts 0, nth_error parts 1).

(** *** Code snippets *)

Definition modBuild : jsstring := lit "mod build ~/workspace/".

Definition modConfigRecipes (artifact : jsstring) (requiresYamlInstall : bool)
  : jsstring :=
  if requiresYamlInstall then
    lines
      [ lit "mod config recipes jar install " ++ artifact ++ lit ":LATEST";
        lit "mod config recipes yaml install /path/to/your/rewrite.yml" ]
  else lit "mod config recipes jar install " ++ artifact ++ lit ":LATEST".

Definition modRun (recipeName : jsstring) : jsstring :=
  lit "mod run ~/workspace/ --recipe " ++ recipeName.

Definition mavenCli (artifact recipeName : jsstring) : jsstring :=
  lit "mvn -U org.openrewrite.maven:rewrite-maven-plugin:run -Drewrite.recipeArtifactCoordinates="
  ++ artifact ++ lit ":RELEASE -Drewrite.activeRecipes="
  ++ recipeName ++ lit " -Drewrite.exportDatatables=true".

Definition mavenPom (recipeName : jsstring) (groupId artifactId : jsvalue)
  : jsstring :=
  lines
    [ lit "<project>";
      lit "  <build>";
      lit "    <plugins>";
      lit "      <plugin>";
      lit "        <groupId>org.openrewrite.maven</groupId>";
      lit "        <artifactId>rewrite-maven-plugin</artifactId>";
      lit "        <version>LATEST</version>";
      lit "        <configuration>";
      lit "          <exportDatatables>true</exportDatatables>";
      lit "          <activeRecipes>";
      lit "            <recipe>" ++ recipeName ++ lit "</recipe>";
      lit "          </activeRecipes>";
      lit "        </configuration>";
      lit "        <dependencies>";
      lit "          <dependency>";
      lit "            <groupId>" ++ to_string groupId ++ lit "</groupId>";
      lit "            <artifactId>" ++ to_string artifactId ++ lit "</artifactId>";
      lit "            <version>LATEST</version>";
      lit "          </dependency>";
      lit "        </dependencies>";
      lit "      </plugin>";
      lit "    </plugins>";
      lit "  </build>";
      lit "</project>" ].

Definition gradleInit (artifact recipeName : jsstring) : jsstring :=
  lines
    [ lit "initscript {";
      lit "    repositories {";
      lit "        maven { url " ++ dquote ++ lit "https://plugins.gradle.org/m2" ++ dquote ++ lit " }";
      lit "    }";
      lit "    dependencies { classpath(" ++ dquote ++ lit "org.openrewrite:plugin:latest.release" ++ dquote ++ lit ") }";
      lit "}";
      lit "rootProject {";
      lit "    plugins.apply(org.openrewrite.gradle.RewritePlugin)";
      lit "    dependencies {";
      lit "        rewrite(" ++ dquote ++ artifact ++ lit ":latest.release" ++ dquote ++ lit ")";
      lit "    }";
      lit "    rewrite {";
      lit "        activeRecipe(" ++ dquote ++ recipeName ++ dquote ++ lit ")";
      lit "        setExportDatatables(true)";
      lit "    }";
      lit "    afterEvaluate {";
      lit "        if (repositories.isEmpty()) {";
      lit "            repositories {";
      lit "                mavenCentral()";
      lit "            }";
      lit "        }";
      lit "    }";
      lit "}" ].

Definition gradleBuild (artifact recipeName : jsstring) : jsstring :=
  lines
    [ lit "plugins {";
      lit "    id(" ++ dquote ++ lit "org.openrewrite.rewrite" ++ dquote ++ lit ") version(" ++ dquote ++ lit "latest.release" ++ dquote ++ lit ")";
      lit "}";
      [];
      lit "rewrite {";
      lit "    activeRecipe(" ++ dquote ++ recipeName ++ dquote ++ lit ")";
      lit "    setExportDatatables(true)";
      lit "}";
      [];
      lit "repositories {";
      lit "    mavenCentral()";
      lit "}";
      [];
      lit "dependencies {";
      lit "    rewrite(" ++ dquote ++ artifact ++ lit ":latest.release" ++ dquote ++ lit ")";
      lit "}" ].

Definition intellijYaml (wrapperName recipeDisplayName description recipeName : jsstring)
  : jsstring :=
  lines
    [ lit "---";
      lit "type: specs.openrewrite.org/v1beta/recipe";
      lit "name: " ++ wrapperName;
      lit "displayName: " ++ recipeDisplayName;
      lit "description: " ++ description;
      lit "recipeList:";
      lit "  - " ++ recipeName ].

(** *** The element tree *)

Definition attr (name text : string) : string * jsstring := (name, lit text).

Definition el (tag : Tag) (children : list jsx) : jsx := Elem tag [] children.

(** [<a href=...>...</a>] *)
Definition link (href : string) (children : list jsx) : jsx :=
  Elem T_a [attr "href" href] children.

(** [<CodeBlock language=... title=...>{content}</CodeBlock>] *)
Definition CodeBlock (language title : string) (content : jsstring) : jsx :=
  Elem T_CodeBlock [attr "language" language; attr "title" title] [Text content].

(** [<TabItem value=... label=...>...</TabItem>] *)
Definition TabItem (value label : string) (children : list jsx) : jsx :=
  Elem T_TabItem [attr "value" value; attr "label" label] children.

Definition txt (s : string) : jsx := Text (lit s).

Definition openrewrite_plugin : string :=
  "https://plugins.jetbrains.com/plugin/23814-openrewrite".

Definition tab_moderne_cli (artifact recipeName : jsstring)
    (requiresYamlInstall : bool) : jsx :=
  TabItem "moderne-cli" "Moderne CLI"
    [ el T_p
        [ txt "The Moderne CLI allows you to run OpenRewrite recipes on your project without needing to modify your build files, against serialized Lossless Semantic Tree (LST) of your project for a considerable performance boost & across projects." ];
      el T_p
        [ txt "You will need to have configured the";
          txt " ";
          link "https://docs.moderne.io/user-documentation/moderne-cli/getting-started/cli-intro"
            [ txt "Moderne CLI" ];
          txt " ";
          txt "on your machine before you can run the following command." ];
      el T_ol
        [ el T_li
            [ txt "If project serialized Lossless Semantic Tree is not yet available locally, then build the LST. This is only needed the first time, or after extensive changes:";
              CodeBlock "bash" "shell" modBuild ];
          el T_li
            [ txt "If the recipe is not available locally yet, then you can install it once using:";
              CodeBlock "shell" "shell" (modConfigRecipes artifact requiresYamlInstall) ];
          el T_li
            [ txt "Run the recipe.";
              CodeBlock "shell" "shell" (modRun recipeName) ] ] ].

Definition tab_maven_command_line (artifact recipeName : jsstring) : jsx :=
  TabItem "maven-command-line" "Maven Command Line"
    [ el T_p
        [ txt "You will need to have ";
          link "https://maven.apache.org/download.cgi" [ txt "Maven" ];
          txt " installed on your machine before you can run the following command." ];
      CodeBlock "shell" "shell" (mavenCli artifact recipeName) ].

Definition tab_maven (recipeName : jsstring) (groupId artifactId : jsvalue) : jsx :=
  TabItem "maven" "Maven POM"
    [ el T_p
        [ txt "You may add the plugin to your ";
          el T_code [ txt "pom.xml" ];
          txt " file, so that it is available for all developers and CI/CD pipelines." ];
      el T_ol
        [ el T_li
            [ txt "Add the following to your ";
              el T_code [ txt "pom.xml" ];
              txt " file:";
              CodeBlock "xml" "pom.xml" (mavenPom recipeName groupId artifactId) ];
          el T_li
            [ txt "Run the recipe.";
              CodeBlock "shell" "shell" (lit "mvn rewrite:run") ] ] ].

Definition tab_gradle_init_script (artifact recipeName : jsstring) : jsx :=
  TabItem "gradle-init-script" "Gradle init script"
    [ el T_p
        [ txt "Gradle init scripts are a good way to try out a recipe without modifying your ";
          el T_code [ txt "build.gradle" ];
          txt " file." ];
      el T_ol
        [ el T_li
            [ txt "Create a file named ";
              el T_code [ txt "init.gradle" ];
              txt " in the root of your project.";
              CodeBlock "groovy" "init.gradle" (gradleInit artifact recipeName) ];
          el T_li
            [ txt "Run the recipe.";
              CodeBlock "shell" "shell"
                (lit "gradle --init-script init.gradle rewriteRun") ] ] ].

Definition tab_gradle (artifact recipeName : jsstring) : jsx :=
  TabItem "gradle" "Gradle"
    [ el T_p
        [ txt "You can add the plugin to your ";
          el T_code [ txt "build.gradle" ];
          txt " file, so that it is available for all developers and CI/CD pipelines." ];
      el T_ol
        [ el T_li
            [ txt "Add the following to your ";
              el T_code [ txt "build.gradle" ];
              txt " file:";
              CodeBlock "groovy" "build.gradle" (gradleBuild artifact recipeName) ];
          el T_li
            [ txt "Run ";
              el T_code [ txt "gradle rewriteRun" ];
              txt " to run the recipe." ] ] ].

Definition tab_intelliJ (wrapperName recipeDisplayName description
    recipeName : jsstring) (requiresYamlInstall : bool) : jsx :=
  TabItem "intelliJ" "IntelliJ IDEA Ultimate"
    [ if requiresYamlInstall then
        el T_Fragment
          [ el T_p
              [ txt "You can run OpenRewrite recipes directly from IntelliJ IDEA, after ";
                link openrewrite_plugin [ txt "installing the OpenRewrite plugin" ];
                txt "." ];
            el T_p
              [ txt "After adding the ";
                el T_code [ txt "rewrite.yml" ];
                txt " file shown above to your project, you should see a run icon in the left margin offering to run the recipe." ] ]
      else
        el T_Fragment
          [ el T_p
              [ txt "You can run OpenRewrite recipes directly from IntelliJ IDEA Ultimate, after ";
                link openrewrite_plugin [ txt "installing the OpenRewrite plugin" ];
                txt ", by adding a ";
                el T_code [ txt "rewrite.yml" ];
                txt " file to your project." ];
            CodeBlock "yaml" "rewrite.yml"
              (intellijYaml wrapperName recipeDisplayName description recipeName);
            el T_p
              [ txt "After adding the file, you should see a run icon in the left margin offering to run the recipe." ] ] ].

(** The body of [RunRecipe] from the split of [artifact] on: everything
    after the constants [wrapperName] and [description]. *)
Definition render (recipeName recipeDisplayName artifact wrapperName
    description : jsstring) (requiresYamlInstall : bool) : completion jsx :=
  match splitArtifact artifact with
  | Throw e => Throw e
  | Normal (groupId, artifactId) =>
      Normal
        (Elem T_Tabs [attr "groupId" "projectType"]
           [ tab_moderne_cli artifact recipeName requiresYamlInstall;
             tab_maven_command_line artifact recipeName;
             tab_maven recipeName groupId artifactId;
             tab_gradle_init_script artifact recipeName;
             tab_gradle artifact recipeName;
             tab_intelliJ wrapperName recipeDisplayName description recipeName
               requiresYamlInstall ])
  end.

Definition RunRecipe (props : Props) : completion jsx :=
  render (recipeName props) (recipeDisplayName props) (artifact props)
    (wrapperName props) (description props)
    (or_false (requiresYamlInstall props)).

(** The rendered tabs: the ordered list of variants. *)
Definition compose (props : Props) : completion (list Variant) :=
  match RunRecipe props with
  | Normal t => Normal (variants t)
  | Throw e => Throw e
  end.

(** Props as a page writes them: the three required strings, the rest unset. *)
Definition config (recipeName recipeDisplayName artifact : string) : Props :=
  {| recipeName := lit recipeName;
     recipeDisplayName := lit recipeDisplayName;
     artifact := lit artifact;
     intellijWrapperName := undefined;
     intellijDescription := undefined;
     requiresYamlInstall := None |}.

Definition with_flag (props : Props) (b : bool) : Props :=
  {| recipeName := recipeName props;
     recipeDisplayName := recipeDisplayName props;
     artifact := artifact props;
     intellijWrapperName := intellijWrapperName props;
     intellijDescription := intellijDescription props;
     requiresYamlInstall := Some b |}.

Definition with_overrides (props : Props) (name descr : jsvalue) : Props :=
  {| recipeName := recipeName props;
     recipeDisplayName := recipeDisplayName props;
     artifact := artifact props;
     intellijWrapperName := name;
     intellijDescription := descr;
     requiresYamlInstall := requiresYamlInstall props |}.

(** The variant at position [i], counted from 0. *)
Definition variant_at (props : Props) (i : nat) : option Variant :=
  match compose props with
  | Normal vs => nth_error vs i
  | Throw _ => None
  end.

(** The labels of the tabs, in the order of the source. *)
Definition tab_labels : list jsvalue :=
  map (fun s => Some (lit s))
    [ "Moderne CLI"; "Maven Command Line"; "Maven POM"; "Gradle init script";
      "Gradle"; "IntelliJ IDEA Ultimate" ]%string.

(** *** The pages that use the component *)

(** [docs/upgrade-your-projects/assertj-best-practices.md] *)
Definition assertj_page : Props :=
  with_overrides
    (config "org.openrewrite.java.testing.assertj.Assertj" "Adopt AssertJ"
       "org.openrewrite.recipe:rewrite-testing-frameworks")
    undefined
    (Some (lit "Adopt AssertJ and apply best practices to assertions.")).

(** The page on JUnit 6 best practices. *)
Definition junit6_page : Props :=
  config "org.openrewrite.java.testing.junit.JUnit6BestPractices"
    "JUnit 6 Best Practices" "org.openrewrite.recipe:rewrite-testing-frameworks".

(** The page on Java 21 for tests. *)
Definition java21_page : Props :=
  with_flag
    (config "com.github.timtebeek.Java21ForTests" "Java 21 for tests"
       "org.openrewrite.recipe:rewrite-migrate-java")
    true.

(** The command line that the Maven tab shows for the JUnit 4 to 5 migration. *)
Definition junit4to5_command : jsstring :=
  lit "mvn -U org.openrewrite.maven:rewrite-maven-plugin:run -Drewrite.recipeArtifactCoordinates=org.openrewrite.recipe:rewrite-testing-frameworks:RELEASE -Drewrite.activeRecipes=org.openrewrite.java.testing.junit5.JUnit4to5Migration -Drewrite.exportDatatables=true".

Definition junit4to5_page : Props :=
  config "org.openrewrite.java.testing.junit5.JUnit4to5Migration"
    "JUnit 4 to 5 Migration" "org.openrewrite.recipe:rewrite-testing-frameworks".

(** The text of the IntelliJ tab when [requiresYamlInstall] is set. *)
Definition intelliJ_yaml_install_text : jsstring :=
  lit "You can run OpenRewrite recipes directly from IntelliJ IDEA, after installing the OpenRewrite plugin.After adding the rewrite.yml file shown above to your project, you should see a run icon in the left margin offering to run the recipe.".

(** ** The props object

    What React hands to the component: the attributes that the page
    wrote in the [<RunRecipe ... />] tag.  An attribute that the page
    left out reads as [undefined]; an attribute that the parameter list
    of the component does not name is never read. *)
Record PropsObject : Type := {
  given_recipeName : jsvalue;
  given_recipeDisplayName : jsvalue;
  given_artifact : jsvalue;
  given_intellijWrapperName : jsvalue;
  given_intellijDescription : jsvalue;
  given_requiresYamlInstall : option bool;
  given_showIntelliJ : option bool
}.

Definition TypeError : JsError := {| error_name := lit "TypeError" |}.

(** A method call [v.m(...)]: reading a property of [undefined] throws. *)
Definition on_string {A : Type} (v : jsvalue) (k : jsstring -> completion A)
  : completion A :=
  match v with
  | Some s => k s
  | None => Throw TypeError
  end.

(** The component on a props object, statement by statement: the
    wrapper name (the right side of [||] is evaluated only when the
    left side is falsy), the description, the split, the element tree. *)
Definition RunRecipe_object (o : PropsObject) : completion jsx :=
  let recipeName := given_recipeName o in
  let recipeDisplayName := given_recipeDisplayName o in
  let requiresYamlInstall := or_false (given_requiresYamlInstall o) in
  match
    (if truthy (given_intellijWrapperName o)
     then Normal (to_string (given_intellijWrapperName o))
     else on_string recipeDisplayName
            (fun s => Normal (deriveWrapperName s)))
  with
  | Throw e => Throw e
  | Normal wrapperName =>
      let description :=
        js_or (given_intellijDescription o)
          (deriveDescription (to_string recipeDisplayName)) in
      on_string (given_artifact o)
        (fun artifact =>
           render (to_string recipeName) (to_string recipeDisplayName)
             artifact wrapperName description requiresYamlInstall)
  end.

(** The props that a props object with an artifact stands for: what is
    left out is printed as [undefined] where a template reads it. *)
Definition printed_props (o : PropsObject) (artifact : jsstring) : Props :=
  {| recipeName := to_string (given_recipeName o);
     recipeDisplayName := to_string (given_recipeDisplayName o);
     artifact := artifact;
     intellijWrapperName := given_intellijWrapperName o;
     intellijDescription := given_intellijDescription o;
     requiresYamlInstall := given_requiresYamlInstall o |}.

Definition with_showIntelliJ (o : PropsObject) (b : option bool) : PropsObject :=
  {| given_recipeName := given_recipeName o;
     given_recipeDisplayName := given_recipeDisplayName o;
     given_artifact := given_artifact o;
     given_intellijWrapperName := given_intellijWrapperName o;
     given_intellijDescription := given_intellijDescription o;
     given_requiresYamlInstall := given_requiresYamlInstall o;
     given_showIntelliJ := b |}.

(** [docs/upgrade-your-projects/change-test-method-signatures.md] *)
Definition change_test_method_signatures_page : PropsObject :=
  {| given_recipeName := Some (lit "com.github.timtebeek.ChangeTestMethodSignatures");
     given_recipeDisplayName := Some (lit "Change test method signatures");
     given_artifact := Some (lit "org.openrewrite.recipe:rewrite-testing-frameworks");
     given_intellijWrapperName := undefined;
     given_intellijDescription := undefined;
     given_requiresYamlInstall := Some true;
     given_showIntelliJ := Some false |}.

(** [x] is the start of [s]. *)
Definition starts_with (x s : jsstring) : Prop :=
  exists post, s = x ++ post.

(** How many code blocks each variant holds. *)
Definition snippet_counts (vs : list Variant) : list nat :=
  map (fun v => List.length (body_snippets v)) vs.

(** * Properties *)

(** ** Strings *)

Section StringFacts.

Lemma lit_app (s t : string) : lit (s ++ t) = lit s ++ lit t.
Proof.
  induction s as [|c s IH]; simpl; [reflexivity | now rewrite IH].
Qed.

(** Replacing every run by the empty string drops exactly the code
    units of the class, wherever the scan stands. *)
Lemma replace_runs_from_empty (cls : codeunit -> bool) (in_run : bool) (s : jsstring) :
  replace_runs_from cls [] in_run s = filter (fun c => negb (cls c)) s.
Proof.
  revert in_run.
  induction s as [|c s IH]; intros in_run; simpl; [reflexivity|].
  destruct (cls c); simpl.
  - destruct in_run; simpl; apply IH.
  - f_equal. apply IH.
Qed.

Lemma replace_runs_empty (cls : codeunit -> bool) (s : jsstring) :
  replace_runs cls [] s = filter (fun c => negb (cls c)) s.
Proof. apply replace_runs_from_empty. Qed.

Lemma split_on_not_nil (sep : codeunit) (s : jsstring) : split_on sep s <> [].
Proof.
  destruct s as [|c s]; simpl; [discriminate|].
  destruct (c =? sep); [discriminate|].
  destruct (split_on sep s); discriminate.
Qed.

(** Without separator the string comes back whole. *)
Lemma split_on_absent (sep : codeunit) (s : jsstring) :
  ~ In sep s -> split_on sep s = [s].
Proof.
  induction s as [|c s IH]; simpl; intros Hs; [reflexivity|].
  destruct (N.eqb_spec c sep) as [->|Hc]; [exfalso; auto|].
  rewrite IH by auto. reflexivity.
Qed.

(** The first element is the part before the first separator. *)
Lemma split_on_first (sep : codeunit) (g rest : jsstring) :
  ~ In sep g -> split_on sep (g ++ sep :: rest) = g :: split_on sep rest.
Proof.
  induction g as [|c g IH]; simpl; intros Hg.
  - now rewrite N.eqb_refl.
  - destruct (N.eqb_spec c sep) as [->|Hc]; [exfalso; auto|].
    rewrite IH by auto. reflexivity.
Qed.

(** A string with a separator splits into two elements at least. *)
Lemma split_on_present (sep : codeunit) (s : jsstring) :
  In sep s -> exists g a more, split_on sep s = g :: a :: more.
Proof.
  induction s as [|c s IH]; simpl; intros Hs; [contradiction|].
  destruct (N.eqb_spec c sep) as [->|Hc].
  - destruct (split_on sep s) as [|a more] eqn:E.
    + now apply split_on_not_nil in E.
    + now exists [], a, more.
  - destruct Hs as [->|Hs]; [congruence|].
    destruct (IH Hs) as (g & a & more & ->).
    now exists (c :: g), a, more.
Qed.

(** Where the first separator is. *)
Lemma first_occurrence (sep : codeunit) (s : jsstring) :
  In sep s -> exists g rest, s = g ++ sep :: rest /\ ~ In sep g.
Proof.
  induction s as [|c s IH]; simpl; intros Hs; [contradiction|].
  destruct (N.eqb_spec c sep) as [->|Hc].
  - exists [], s. simpl. auto.
  - destruct Hs as [->|Hs]; [congruence|].
    destruct (IH Hs) as (g & rest & -> & Hg).
    exists (c :: g), rest. simpl. split; [reflexivity|].
    intros [E|Hin]; [congruence | auto].
Qed.

(** The segment up to the next separator, or up to the end. *)
Lemma leading_segment (sep : codeunit) (s : jsstring) :
  exists a rest, s = a ++ rest /\ ~ In sep a
                 /\ (rest = [] \/ exists r, rest = sep :: r).
Proof.
  induction s as [|c s (a & rest & -> & Ha & Hrest)].
  - exists [], []. simpl. auto.
  - destruct (N.eqb_spec c sep) as [->|Hc].
    + exists [], (sep :: a ++ rest). simpl.
      split; [reflexivity|]. split; [tauto|]. right. now exists (a ++ rest).
    + exists (c :: a), rest. simpl. split; [reflexivity|]. split; [|exact Hrest].
      intros [E|Hin]; [congruence | auto].
Qed.

Lemma split_on_head (sep : codeunit) (a rest : jsstring) :
  ~ In sep a -> (rest = [] \/ exists r, rest = sep :: r) ->
  exists more, split_on sep (a ++ rest) = a :: more.
Proof.
  intros Ha [->|(r & ->)].
  - rewrite app_nil_r, split_on_absent by assumption. now exists [].
  - rewrite split_on_first by assumption. eauto.
Qed.

Lemma absent_by_existsb (c : codeunit) (s : jsstring) :
  existsb (N.eqb c) s = false -> ~ In c s.
Proof.
  intros E H. enough (existsb (N.eqb c) s = true) by congruence.
  apply existsb_exists. exists c. split; [exact H | apply N.eqb_refl].
Qed.

Lemma infix_refl (s : jsstring) : infix s s.
Proof. exists [], []. now rewrite app_nil_r. Qed.

Lemma infix_app_l (x s t : jsstring) : infix x s -> infix x (s ++ t).
Proof.
  intros (pre & post & ->). exists pre, (post ++ t).
  now rewrite <- !app_assoc.
Qed.

Lemma infix_app_r (x s t : jsstring) : infix x t -> infix x (s ++ t).
Proof.
  intros (pre & post & ->). exists (s ++ pre), post.
  now rewrite <- !app_assoc.
Qed.

Lemma infix_cons (x s : jsstring) (c : codeunit) : infix x s -> infix x (c :: s).
Proof. apply (infix_app_r x [c] s). Qed.

Lemma infix_trans (x y s : jsstring) : infix x y -> infix y s -> infix x s.
Proof.
  intros (p1 & q1 & ->) (p2 & q2 & ->). exists (p2 ++ p1), (q1 ++ q2).
  now rewrite <- !app_assoc.
Qed.

Lemma prefixb_spec (x s : jsstring) :
  prefixb x s = true <-> exists post, s = x ++ post.
Proof.
  revert s. induction x as [|a x IH]; intros s; simpl.
  - split; eauto.
  - destruct s as [|b s].
    + split; [discriminate | intros (post & E); discriminate].
    + rewrite andb_true_iff, N.eqb_eq, IH. split.
      * intros (-> & post & ->). eauto.
      * intros (post & E). injection E as -> ->. eauto.
Qed.

Lemma infixb_spec (x s : jsstring) : infixb x s = true <-> infix x s.
Proof.
  induction s as [|b s IH]; simpl; rewrite orb_true_iff, prefixb_spec.
  - split.
    + intros [(post & E)|E]; [|discriminate]. exists [], post. exact E.
    + intros (pre & post & E). left.
      destruct pre; [eauto | discriminate].
  - rewrite IH. split.
    + intros [(post & E)|(pre & post & E)].
      * exists [], post. exact E.
      * exists (b :: pre), post. simpl. now rewrite E.
    + intros (pre & post & E). destruct pre as [|c pre]; simpl in E.
      * left. eauto.
      * right. injection E as _ E. exists pre, post. exact E.
Qed.

Lemma not_infix (x s : jsstring) : infixb x s = false -> ~ infix x s.
Proof.
  intros E H. apply infixb_spec in H. congruence.
Qed.

End StringFacts.

(** ** The component *)

Arguments lit : simpl never.

(** The component returns for every props: the split never throws and
    nothing else in the body can. *)
Lemma render_normal (recipeName recipeDisplayName artifact wrapperName
    description : jsstring) (requiresYamlInstall : bool) :
  render recipeName recipeDisplayName artifact wrapperName description
    requiresYamlInstall
  = Normal
      (Elem T_Tabs [attr "groupId" "projectType"]
         [ tab_moderne_cli artifact recipeName requiresYamlInstall;
           tab_maven_command_line artifact recipeName;
           tab_maven recipeName
             (nth_error (split_on colon artifact) 0)
             (nth_error (split_on colon artifact) 1);
           tab_gradle_init_script artifact recipeName;
           tab_gradle artifact recipeName;
           tab_intelliJ wrapperName recipeDisplayName description recipeName
             requiresYamlInstall ]).
Proof. reflexivity. Qed.

Lemma compose_labels (props : Props) :
  exists vs, compose props = Normal vs /\ map label vs = tab_labels.
Proof.
  unfold compose, RunRecipe. rewrite render_normal.
  eexists. split; reflexivity.
Qed.

Lemma variant_at_intelliJ (props : Props) :
  variant_at props 5
  = Some {| value := Some (lit "intelliJ");
            label := Some (lit "IntelliJ IDEA Ultimate");
            body :=
              match tab_intelliJ (wrapperName props) (recipeDisplayName props)
                      (description props) (recipeName props)
                      (or_false (requiresYamlInstall props)) with
              | Elem _ _ children => children
              | Text _ => []
              end |}.
Proof. reflexivity. Qed.

(** ** The wrapper name *)

(** C4: [deriveWrapperName] is defined on every string and gives the
    fixed prefix [com.github.timtebeek.] followed by the display name
    without its white space: the code units that are not white space,
    in their order.  On [Adopt AssertJ] it gives
    [com.github.timtebeek.AdoptAssertJ], on the empty string the prefix
    alone. *)
Theorem deriveWrapperName_strips_whitespace :
  forall displayName : jsstring,
    deriveWrapperName displayName
    = lit "com.github.timtebeek."
      ++ filter (fun c => negb (is_whitespace c)) displayName
    /\ deriveWrapperName (lit "Adopt AssertJ")
       = lit "com.github.timtebeek.AdoptAssertJ"
    /\ deriveWrapperName [] = lit "com.github.timtebeek.".
Proof.
  intros displayName. split; [|split].
  - unfold deriveWrapperName. now rewrite replace_runs_empty.
  - reflexivity.
  - reflexivity.
Qed.

(** No white space is left after the prefix, whatever the display name. *)
Lemma deriveWrapperName_no_whitespace (displayName : jsstring) :
  exists rest,
    deriveWrapperName displayName = lit "com.github.timtebeek." ++ rest
    /\ Forall (fun c => is_whitespace c = false) rest.
Proof.
  exists (filter (fun c => negb (is_whitespace c)) displayName). split.
  - unfold deriveWrapperName. now rewrite replace_runs_empty.
  - apply Forall_forall. intros c Hc. apply filter_In in Hc.
    now apply negb_true_iff.
Qed.

(** A run of several kinds of white space goes as a whole. *)
Example deriveWrapperName_runs :
  deriveWrapperName (lit " JUnit 6" ++ [0x09; 0xA0; 0x2003] ++ lit "Best  Practices ")
  = lit "com.github.timtebeek.JUnit6BestPractices".
Proof. reflexivity. Qed.

(** ** The split of the artifact coordinates *)

Lemma splitArtifact_segments (g a rest : jsstring) :
  ~ In colon g -> ~ In colon a ->
  (rest = [] \/ exists r, rest = colon :: r) ->
  splitArtifact (g ++ colon :: a ++ rest) = Normal (Some g, Some a).
Proof.
  intros Hg Ha Hrest. unfold splitArtifact.
  rewrite split_on_first by assumption.
  destruct (split_on_head colon a rest Ha Hrest) as (more & ->).
  reflexivity.
Qed.

Lemma splitArtifact_without_colon (artifact : jsstring) :
  ~ In colon artifact ->
  splitArtifact artifact = Normal (Some artifact, undefined).
Proof.
  intros H. unfold splitArtifact. now rewrite split_on_absent.
Qed.

Lemma splitArtifact_normal (artifact : jsstring) :
  exists g i,
    splitArtifact artifact = Normal (Some g, i)
    /\ (i = undefined <-> ~ In colon artifact).
Proof.
  destruct (in_dec N.eq_dec colon artifact) as [Hin|Hout].
  - destruct (first_occurrence colon artifact Hin) as (g & rest & -> & Hg).
    destruct (leading_segment colon rest) as (a & more & -> & Ha & Hmore).
    exists g, (Some a). rewrite splitArtifact_segments by assumption.
    split; [reflexivity|]. split; [discriminate|].
    intros H. exfalso. apply H, in_or_app. right. now left.
  - exists artifact, undefined.
    rewrite splitArtifact_without_colon by assumption. tauto.
Qed.

Lemma compose_six (props : Props) :
  exists vs, compose props = Normal vs /\ List.length vs = 6%nat.
Proof.
  unfold compose, RunRecipe. rewrite render_normal.
  eexists. split; reflexivity.
Qed.

(** C2, as the code has it: the split never throws.  Every artifact
    string gives a pair whose first part is a string; the second part
    is [undefined] exactly when the string has no colon.  Rendering has
    no failure path either: every props give all six variants. *)
Theorem splitArtifact_never_throws :
  (forall artifact : jsstring,
     exists g i,
       splitArtifact artifact = Normal (Some g, i)
       /\ (i = undefined <-> ~ In colon artifact))
  /\ (forall props : Props,
        exists vs, compose props = Normal vs /\ List.length vs = 6%nat).
Proof.
  split; [exact splitArtifact_normal | exact compose_six].
Qed.

(** C2 fails as stated: a string without colon is split without error,
    and the component renders its six variants from it. *)
Lemma splitArtifact_no_colon_here :
  ~ In colon (lit "no-colon-here")
  /\ splitArtifact (lit "no-colon-here")
     = Normal (Some (lit "no-colon-here"), undefined)
  /\ (forall e, splitArtifact (lit "no-colon-here") <> Throw e)
  /\ exists vs,
       compose (config "org.example.Recipe" "Example" "no-colon-here") = Normal vs
       /\ List.length vs = 6%nat.
Proof.
  split; [|split; [|split]].
  - now apply absent_by_existsb.
  - reflexivity.
  - intros e. discriminate.
  - eexists. split; reflexivity.
Qed.

(** C3, as the code has it: [split] cuts at every colon and the
    destructuring keeps the first two elements.  For an artifact with a
    colon, the group is the part before the first colon and the
    artifactId is the part between the first colon and the second one,
    or the whole remainder when there is no second colon. *)
Theorem splitArtifact_first_two_segments (artifact : jsstring) :
  In colon artifact ->
  exists g a rest,
    artifact = g ++ colon :: a ++ rest
    /\ ~ In colon g
    /\ ~ In colon a
    /\ (rest = [] \/ exists r, rest = colon :: r)
    /\ splitArtifact artifact = Normal (Some g, Some a).
Proof.
  intros Hin.
  destruct (first_occurrence colon artifact Hin) as (g & tail & -> & Hg).
  destruct (leading_segment colon tail) as (a & rest & -> & Ha & Hrest).
  exists g, a, rest. repeat split; try assumption.
  now apply splitArtifact_segments.
Qed.

Lemma splitArtifact_first_two_segments_witness :
  In colon (lit "org.example:my-tool")
  /\ exists g a rest,
       lit "org.example:my-tool" = g ++ colon :: a ++ rest
       /\ ~ In colon g
       /\ ~ In colon a
       /\ (rest = [] \/ exists r, rest = colon :: r)
       /\ splitArtifact (lit "org.example:my-tool") = Normal (Some g, Some a).
Proof.
  assert (H : In colon (lit "org.example:my-tool")).
  { apply (in_elt colon (lit "org.example") (lit "my-tool")). }
  split; [exact H|].
  exact (splitArtifact_first_two_segments (lit "org.example:my-tool") H).
Defined.

(** The example of the specification. *)
Example splitArtifact_example :
  splitArtifact (lit "org.example:my-tool")
  = Normal (Some (lit "org.example"), Some (lit "my-tool")).
Proof. reflexivity. Qed.

(** With one colon the artifactId is the whole remainder. *)
Lemma splitArtifact_one_colon (g a : jsstring) :
  ~ In colon g -> ~ In colon a ->
  splitArtifact (g ++ colon :: a) = Normal (Some g, Some a).
Proof.
  intros Hg Ha.
  pose proof (splitArtifact_segments g a [] Hg Ha (or_introl eq_refl)) as H.
  now rewrite app_nil_r in H.
Qed.

(** C3 fails as stated on coordinates with a version: what follows the
    first colon is [rewrite-testing-frameworks:3.0.0], the artifactId of
    the code is [rewrite-testing-frameworks]. *)
Lemma splitArtifact_drops_third_segment :
  lit "org.openrewrite.recipe:rewrite-testing-frameworks:3.0.0"
  = lit "org.openrewrite.recipe" ++ colon :: lit "rewrite-testing-frameworks:3.0.0"
  /\ ~ In colon (lit "org.openrewrite.recipe")
  /\ splitArtifact (lit "org.openrewrite.recipe:rewrite-testing-frameworks:3.0.0")
     = Normal (Some (lit "org.openrewrite.recipe"),
               Some (lit "rewrite-testing-frameworks"))
  /\ lit "rewrite-testing-frameworks" <> lit "rewrite-testing-frameworks:3.0.0".
Proof.
  split; [reflexivity|]. split; [now apply absent_by_existsb|].
  split; [reflexivity|]. discriminate.
Qed.

(** ** The variants *)

(** C1, as the code has it: six variants, the Gradle build file being
    the fifth and the IntelliJ one the sixth.  For every props with a
    colon in the artifact, [compose] returns the six variants in the
    order Moderne CLI, Maven Command Line, Maven POM, Gradle init
    script, Gradle, IntelliJ IDEA Ultimate, and the labels and the
    place of the IntelliJ variant are the same for both values of
    [requiresYamlInstall]. *)
Theorem compose_six_variants (props : Props) :
  In colon (artifact props) ->
  exists vs,
    compose props = Normal vs
    /\ List.length vs = 6%nat
    /\ map label vs = tab_labels
    /\ forall b : bool,
         exists vs',
           compose (with_flag props b) = Normal vs'
           /\ map label vs' = map label vs
           /\ option_map label (nth_error vs' 5)
              = Some (Some (lit "IntelliJ IDEA Ultimate")).
Proof.
  intros _.
  destruct (compose_labels props) as (vs & E & L).
  exists vs. split; [exact E|]. split.
  - apply (f_equal (@List.length _)) in L. now rewrite length_map in L.
  - split; [exact L|]. intros b.
    destruct (compose_labels (with_flag props b)) as (vs' & E' & L').
    exists vs'. split; [exact E'|]. split; [congruence|].
    pose proof (variant_at_intelliJ (with_flag props b)) as V.
    unfold variant_at in V. rewrite E' in V. now rewrite V.
Qed.

Lemma compose_six_variants_witness :
  In colon (artifact junit6_page)
  /\ exists vs,
       compose junit6_page = Normal vs
       /\ List.length vs = 6%nat
       /\ map label vs = tab_labels
       /\ forall b : bool,
            exists vs',
              compose (with_flag junit6_page b) = Normal vs'
              /\ map label vs' = map label vs
              /\ option_map label (nth_error vs' 5)
                 = Some (Some (lit "IntelliJ IDEA Ultimate")).
Proof.
  assert (H : In colon (artifact junit6_page)).
  { apply (in_elt colon (lit "org.openrewrite.recipe")
             (lit "rewrite-testing-frameworks")). }
  split; [exact H | exact (compose_six_variants junit6_page H)].
Defined.

(** C1 fails as stated: on the AssertJ page [compose] gives six
    variants, and the fifth is the Gradle build file, not the IntelliJ
    one. *)
Lemma compose_assertj_page_six :
  In colon (artifact assertj_page)
  /\ exists vs,
       compose assertj_page = Normal vs
       /\ List.length vs = 6%nat
       /\ option_map label (nth_error vs 4) = Some (Some (lit "Gradle"))
       /\ option_map label (nth_error vs 5)
          = Some (Some (lit "IntelliJ IDEA Ultimate")).
Proof.
  split.
  - apply (in_elt colon (lit "org.openrewrite.recipe")
             (lit "rewrite-testing-frameworks")).
  - eexists. repeat split; reflexivity.
Qed.

(** Finds the place of a substring in a concatenation of which it is
    one of the pieces. *)
Ltac find_infix :=
  lazymatch goal with
  | |- infix ?x ?x => apply infix_refl
  | |- infix _ (_ ++ _) =>
      first [ apply infix_app_l; find_infix | apply infix_app_r; find_infix ]
  | |- infix _ (_ :: _) => apply infix_cons; find_infix
  end.

Lemma variant_at_maven_command_line (props : Props) :
  variant_at props 1
  = Some {| value := Some (lit "maven-command-line");
            label := Some (lit "Maven Command Line");
            body :=
              [ el T_p
                  [ txt "You will need to have ";
                    link "https://maven.apache.org/download.cgi" [ txt "Maven" ];
                    txt " installed on your machine before you can run the following command." ];
                CodeBlock "shell" "shell"
                  (mavenCli (artifact props) (recipeName props)) ] |}.
Proof. reflexivity. Qed.

(** C5, as the code has it: the body of variant 2 is a paragraph on
    installing Maven followed by one code block, and the content of
    that code block is exactly the single command line of the claim. *)
Theorem maven_command_line_snippet (props : Props) :
  recipeName props = lit "org.openrewrite.java.testing.junit5.JUnit4to5Migration" ->
  artifact props = lit "org.openrewrite.recipe:rewrite-testing-frameworks" ->
  or_false (requiresYamlInstall props) = false ->
  exists v,
    variant_at props 1 = Some v
    /\ label v = Some (lit "Maven Command Line")
    /\ body v
       = [ el T_p
             [ txt "You will need to have ";
               link "https://maven.apache.org/download.cgi" [ txt "Maven" ];
               txt " installed on your machine before you can run the following command." ];
           CodeBlock "shell" "shell" junit4to5_command ]
    /\ body_snippets v = [junit4to5_command]
    /\ ~ In 10 junit4to5_command.
Proof.
  intros Hname Hartifact _.
  rewrite variant_at_maven_command_line, Hname, Hartifact.
  eexists. split; [reflexivity|]. split; [reflexivity|].
  split; [reflexivity|]. split; [reflexivity|].
  now apply absent_by_existsb.
Qed.

Lemma maven_command_line_snippet_witness :
  exists v,
    variant_at junit4to5_page 1 = Some v
    /\ label v = Some (lit "Maven Command Line")
    /\ body v
       = [ el T_p
             [ txt "You will need to have ";
               link "https://maven.apache.org/download.cgi" [ txt "Maven" ];
               txt " installed on your machine before you can run the following command." ];
           CodeBlock "shell" "shell" junit4to5_command ]
    /\ body_snippets v = [junit4to5_command]
    /\ ~ In 10 junit4to5_command.
Proof.
  exact (maven_command_line_snippet junit4to5_page eq_refl eq_refl eq_refl).
Defined.

(** C5 fails as stated: the body of variant 2 has two children, and its
    text starts with the paragraph, so it is more than the command line. *)
Lemma maven_command_line_body_has_prose :
  exists v,
    variant_at junit4to5_page 1 = Some v
    /\ List.length (body v) = 2%nat
    /\ body_text v
       = lit "You will need to have Maven installed on your machine before you can run the following command."
         ++ junit4to5_command
    /\ body_text v <> junit4to5_command.
Proof.
  eexists. split; [reflexivity|]. split; [reflexivity|].
  split; [reflexivity|]. discriminate.
Qed.

Lemma variant_at_moderne_cli (props : Props) :
  exists v,
    variant_at props 0 = Some v
    /\ label v = Some (lit "Moderne CLI")
    /\ body_snippets v
       = [ modBuild;
           modConfigRecipes (artifact props) (or_false (requiresYamlInstall props));
           modRun (recipeName props) ]
    /\ infix (modConfigRecipes (artifact props) (or_false (requiresYamlInstall props)))
         (body_text v).
Proof.
  eexists. split; [reflexivity|]. split; [reflexivity|]. split.
  - unfold body_snippets. simpl. now rewrite !app_nil_r.
  - unfold body_text. cbn. find_infix.
Qed.

(** The IntelliJ tab without [requiresYamlInstall]: one code block, the
    [rewrite.yml], with the wrapper name and the description in it. *)
Lemma intelliJ_with_yaml (props : Props) :
  or_false (requiresYamlInstall props) = false ->
  exists v,
    variant_at props 5 = Some v
    /\ label v = Some (lit "IntelliJ IDEA Ultimate")
    /\ body_snippets v
       = [ intellijYaml (wrapperName props) (recipeDisplayName props)
             (description props) (recipeName props) ]
    /\ contains v (wrapperName props)
    /\ contains v (description props).
Proof.
  intros Hflag. rewrite variant_at_intelliJ, Hflag.
  eexists. split; [reflexivity|]. split; [reflexivity|]. split.
  - unfold body_snippets. simpl. now rewrite !app_nil_r.
  - unfold contains, body_text.
    generalize (wrapperName props) (description props). intros w d.
    cbn. split; find_infix.
Qed.

(** The IntelliJ tab with [requiresYamlInstall]: two paragraphs of fixed
    text and no code block. *)
Lemma intelliJ_yaml_install (props : Props) :
  or_false (requiresYamlInstall props) = true ->
  exists v,
    variant_at props 5 = Some v
    /\ label v = Some (lit "IntelliJ IDEA Ultimate")
    /\ body v = match tab_intelliJ [] [] [] [] true with
                | Elem _ _ children => children
                | Text _ => []
                end
    /\ body_snippets v = []
    /\ body_text v = intelliJ_yaml_install_text.
Proof.
  intros Hflag. rewrite variant_at_intelliJ, Hflag.
  eexists. repeat split; reflexivity.
Qed.

Lemma derived_wrapper_absent (displayName text : jsstring) :
  infixb (lit "com.github.timtebeek.") text = false ->
  ~ infix (deriveWrapperName displayName) text.
Proof.
  intros E H. apply (not_infix _ _ E).
  apply (infix_trans _ (deriveWrapperName displayName)); [|exact H].
  apply infix_app_l, infix_refl.
Qed.

Lemma derived_description_absent (displayName text : jsstring) :
  infixb (lit " and apply best practices to assertions.") text = false ->
  ~ infix (deriveDescription displayName) text.
Proof.
  intros E H. apply (not_infix _ _ E).
  apply (infix_trans _ (deriveDescription displayName)); [|exact H].
  apply infix_app_r, infix_refl.
Qed.

(** C6, as the code has it: the IntelliJ variant is the sixth one.
    Without [requiresYamlInstall] and without overrides its body
    contains the derived wrapper name and the derived description.
    With [requiresYamlInstall] the install snippet of variant 1 has one
    more line, the installation of [/path/to/your/rewrite.yml], and the
    body of the IntelliJ variant has no code block; its text is fixed
    and contains neither the derived wrapper name nor the derived
    description. *)
Theorem intelliJ_variant_by_flag (props : Props) :
  (or_false (requiresYamlInstall props) = false ->
   intellijWrapperName props = undefined ->
   intellijDescription props = undefined ->
   exists v,
     variant_at props 5 = Some v
     /\ label v = Some (lit "IntelliJ IDEA Ultimate")
     /\ contains v (deriveWrapperName (recipeDisplayName props))
     /\ contains v (deriveDescription (recipeDisplayName props)))
  /\ (or_false (requiresYamlInstall props) = true ->
      exists v1 v6,
        variant_at props 0 = Some v1
        /\ variant_at props 5 = Some v6
        /\ label v6 = Some (lit "IntelliJ IDEA Ultimate")
        /\ body_snippets v1
           = [ modBuild;
               modConfigRecipes (artifact props) false ++ newline
               ++ lit "mod config recipes yaml install /path/to/your/rewrite.yml";
               modRun (recipeName props) ]
        /\ contains v1
             (modConfigRecipes (artifact props) false ++ newline
              ++ lit "mod config recipes yaml install /path/to/your/rewrite.yml")
        /\ body_snippets v6 = []
        /\ body_text v6 = intelliJ_yaml_install_text
        /\ ~ contains v6 (deriveWrapperName (recipeDisplayName props))
        /\ ~ contains v6 (deriveDescription (recipeDisplayName props))).
Proof.
  split.
  - intros Hflag Hname Hdescr.
    destruct (intelliJ_with_yaml props Hflag) as (v & Hv & Hl & _ & Hw & Hd).
    unfold wrapperName in Hw. unfold description in Hd.
    rewrite Hname in Hw. rewrite Hdescr in Hd.
    exists v. auto.
  - intros Hflag.
    destruct (variant_at_moderne_cli props) as (v1 & Hv1 & _ & Hs1 & Hc1).
    destruct (intelliJ_yaml_install props Hflag) as (v6 & Hv6 & Hl6 & _ & Hs6 & Ht6).
    rewrite Hflag in Hs1, Hc1.
    assert (Hinstall :
      modConfigRecipes (artifact props) true
      = modConfigRecipes (artifact props) false ++ newline
        ++ lit "mod config recipes yaml install /path/to/your/rewrite.yml").
    { unfold modConfigRecipes, lines. simpl join. now rewrite <- !app_assoc. }
    rewrite Hinstall in Hs1, Hc1.
    exists v1, v6.
    repeat (split; [assumption|]).
    unfold contains. rewrite Ht6. split.
    + now apply derived_wrapper_absent.
    + now apply derived_description_absent.
Qed.

Lemma intelliJ_variant_by_flag_witness :
  (exists v,
     variant_at junit6_page 5 = Some v
     /\ label v = Some (lit "IntelliJ IDEA Ultimate")
     /\ contains v (deriveWrapperName (recipeDisplayName junit6_page))
     /\ contains v (deriveDescription (recipeDisplayName junit6_page)))
  /\ (exists v1 v6,
        variant_at java21_page 0 = Some v1
        /\ variant_at java21_page 5 = Some v6
        /\ label v6 = Some (lit "IntelliJ IDEA Ultimate")
        /\ body_snippets v1
           = [ modBuild;
               modConfigRecipes (artifact java21_page) false ++ newline
               ++ lit "mod config recipes yaml install /path/to/your/rewrite.yml";
               modRun (recipeName java21_page) ]
        /\ contains v1
             (modConfigRecipes (artifact java21_page) false ++ newline
              ++ lit "mod config recipes yaml install /path/to/your/rewrite.yml")
        /\ body_snippets v6 = []
        /\ body_text v6 = intelliJ_yaml_install_text
        /\ ~ contains v6 (deriveWrapperName (recipeDisplayName java21_page))
        /\ ~ contains v6 (deriveDescription (recipeDisplayName java21_page))).
Proof.
  split.
  - exact (proj1 (intelliJ_variant_by_flag junit6_page) eq_refl eq_refl eq_refl).
  - exact (proj2 (intelliJ_variant_by_flag java21_page) eq_refl).
Defined.

(** C6 fails as stated.  On the JUnit 6 page, which sets neither the
    flag nor an override, the fifth variant is the Gradle build file
    and its body has no derived wrapper name.  And with
    [requiresYamlInstall], a supplied wrapper name or description that
    is a phrase of the fixed text occurs in the body of the IntelliJ
    variant. *)
Lemma fifth_variant_is_gradle :
  (exists v,
     variant_at junit6_page 4 = Some v
     /\ label v = Some (lit "Gradle")
     /\ ~ contains v (deriveWrapperName (recipeDisplayName junit6_page)))
  /\ (exists v,
        variant_at
          (with_overrides java21_page (Some (lit "run icon")) (Some (lit "recipe")))
          5 = Some v
        /\ contains v (lit "run icon")
        /\ contains v (lit "recipe")).
Proof.
  split.
  - eexists. split; [reflexivity|]. split; [reflexivity|].
    unfold contains. now apply not_infix.
  - eexists. split; [reflexivity|].
    unfold contains. split; now apply infixb_spec.
Qed.

(** ** Overrides *)







(** ** The IntelliJ variant with [requiresYamlInstall] *)

(** C9: with [requiresYamlInstall] the body of the IntelliJ variant is
    one fixed text, the same for any two props, whatever their recipe,
    display name, artifact and overrides. *)
Theorem intelliJ_body_fixed (p q : Props) :
  requiresYamlInstall p = Some true ->
  requiresYamlInstall q = Some true ->
  exists v w,
    variant_at p 5 = Some v
    /\ variant_at q 5 = Some w
    /\ label v = Some (lit "IntelliJ IDEA Ultimate")
    /\ label w = Some (lit "IntelliJ IDEA Ultimate")
    /\ body v = body w
    /\ body_text v = intelliJ_yaml_install_text.
Proof.
  intros Hp Hq.
  destruct (intelliJ_yaml_install p) as (v & Hv & Hlv & Hbv & _ & Htv);
    [now rewrite Hp|].
  destruct (intelliJ_yaml_install q) as (w & Hw & Hlw & Hbw & _ & _);
    [now rewrite Hq|].
  exists v, w. repeat (split; [assumption|]). split; [congruence | assumption].
Qed.

Lemma intelliJ_body_fixed_witness :
  exists v w,
    variant_at java21_page 5 = Some v
    /\ variant_at
         (with_flag
            (with_overrides assertj_page (Some (lit "org.example.AssertJ")) undefined)
            true)
         5 = Some w
    /\ label v = Some (lit "IntelliJ IDEA Ultimate")
    /\ label w = Some (lit "IntelliJ IDEA Ultimate")
    /\ body v = body w
    /\ body_text v = intelliJ_yaml_install_text.
Proof.
  exact (intelliJ_body_fixed java21_page
           (with_flag
              (with_overrides assertj_page (Some (lit "org.example.AssertJ")) undefined)
              true)
           eq_refl eq_refl).
Defined.

(** ** An artifact without colon *)

Lemma variant_at_maven (props : Props) :
  exists v,
    variant_at props 2 = Some v
    /\ label v = Some (lit "Maven POM")
    /\ body_snippets v
       = [ mavenPom (recipeName props)
             (nth_error (split_on colon (artifact props)) 0)
             (nth_error (split_on colon (artifact props)) 1);
           lit "mvn rewrite:run" ]
    /\ infix
         (mavenPom (recipeName props)
            (nth_error (split_on colon (artifact props)) 0)
            (nth_error (split_on colon (artifact props)) 1))
         (body_text v).
Proof.
  eexists. split; [reflexivity|]. split; [reflexivity|]. split.
  - unfold body_snippets. simpl. now rewrite !app_nil_r.
  - unfold body_text.
    generalize (mavenPom (recipeName props)
                  (nth_error (split_on colon (artifact props)) 0)
                  (nth_error (split_on colon (artifact props)) 1)).
    intros pom. cbn. find_infix.
Qed.

(** The dependency block of the POM shows the two parts of the split. *)
Lemma mavenPom_dependency (recipeName : jsstring) (groupId artifactId : jsvalue) :
  infix (lit "<groupId>" ++ to_string groupId ++ lit "</groupId>")
    (mavenPom recipeName groupId artifactId)
  /\ infix (lit "<artifactId>" ++ to_string artifactId ++ lit "</artifactId>")
       (mavenPom recipeName groupId artifactId).
Proof.
  unfold mavenPom, lines. cbn [join]. unfold newline.
  generalize (to_string groupId) (to_string artifactId). intros g a.
  split.
  - apply (infix_trans _ (lit "            <groupId>" ++ g ++ lit "</groupId>")).
    + apply (infix_app_r _ (lit "            ")), infix_refl.
    + generalize (lit "            <groupId>" ++ g ++ lit "</groupId>").
      intros line. find_infix.
  - apply (infix_trans _ (lit "            <artifactId>" ++ a ++ lit "</artifactId>")).
    + apply (infix_app_r _ (lit "            ")), infix_refl.
    + generalize (lit "            <artifactId>" ++ a ++ lit "</artifactId>").
      intros line. find_infix.
Qed.

(** C10: an artifact without colon raises nothing.  The split gives the
    whole string as group and [undefined] as artifactId, [compose]
    returns its six variants, and the dependency block of the Maven POM
    variant shows the whole string as groupId and the text [undefined]
    as artifactId. *)
Theorem artifact_without_colon_renders (props : Props) :
  ~ In colon (artifact props) ->
  splitArtifact (artifact props) = Normal (Some (artifact props), undefined)
  /\ exists vs,
       compose props = Normal vs
       /\ List.length vs = 6%nat
       /\ map label vs = tab_labels
       /\ exists v,
            nth_error vs 2 = Some v
            /\ label v = Some (lit "Maven POM")
            /\ body_snippets v
               = [ mavenPom (recipeName props) (Some (artifact props)) undefined;
                   lit "mvn rewrite:run" ]
            /\ contains v
                 (lit "<groupId>" ++ artifact props ++ lit "</groupId>")
            /\ contains v (lit "<artifactId>undefined</artifactId>").
Proof.
  intros Hcolon.
  split; [now apply splitArtifact_without_colon|].
  destruct (compose_labels props) as (vs & E & L).
  exists vs. split; [exact E|]. split.
  { apply (f_equal (@List.length _)) in L. now rewrite length_map in L. }
  split; [exact L|].
  destruct (variant_at_maven props) as (v & Hv & Hl & Hs & Hpom).
  unfold variant_at in Hv. rewrite E in Hv.
  rewrite split_on_absent in Hs, Hpom by assumption. simpl nth_error in Hs, Hpom.
  exists v. repeat (split; [assumption|]).
  destruct (mavenPom_dependency (recipeName props) (Some (artifact props)) undefined)
    as [Hg Ha].
  unfold contains. split.
  - exact (infix_trans _ _ _ Hg Hpom).
  - exact (infix_trans _ _ _ Ha Hpom).
Qed.

Lemma artifact_without_colon_renders_witness :
  ~ In colon (artifact (config "org.example.Recipe" "Example" "no-colon-here"))
  /\ splitArtifact (lit "no-colon-here")
     = Normal (Some (lit "no-colon-here"), undefined)
  /\ exists vs,
       compose (config "org.example.Recipe" "Example" "no-colon-here") = Normal vs
       /\ List.length vs = 6%nat
       /\ map label vs = tab_labels
       /\ exists v,
            nth_error vs 2 = Some v
            /\ label v = Some (lit "Maven POM")
            /\ body_snippets v
               = [ mavenPom (lit "org.example.Recipe")
                     (Some (lit "no-colon-here")) undefined;
                   lit "mvn rewrite:run" ]
            /\ contains v
                 (lit "<groupId>" ++ lit "no-colon-here" ++ lit "</groupId>")
            /\ contains v (lit "<artifactId>undefined</artifactId>").
Proof.
  assert (H : ~ In colon
                (artifact (config "org.example.Recipe" "Example" "no-colon-here"))).
  { now apply absent_by_existsb. }
  split; [exact H|].
  exact (artifact_without_colon_renders
           (config "org.example.Recipe" "Example" "no-colon-here") H).
Defined.

(** * Further properties of the component *)

(** ** Names and descriptions *)

(** X1: the name and the description that go into [rewrite.yml] are
    never empty: an empty override gives way to the derived value, and
    a derived value always has its fixed part. *)
Theorem wrapperName_description_nonempty (props : Props) :
  wrapperName props <> [] /\ description props <> [].
Proof.
  unfold wrapperName, description, js_or. split.
  - destruct (intellijWrapperName props) as [[|c s]|]; simpl;
      try discriminate;
      intros E; apply app_eq_nil in E; destruct E as [E _]; discriminate E.
  - destruct (intellijDescription props) as [[|c s]|]; simpl;
      try discriminate;
      intros E; apply app_eq_nil in E; destruct E as [_ E]; discriminate E.
Qed.

(** X2: no code unit of a derived wrapper name is white space, the
    prefix included, whatever the display name. *)
Theorem deriveWrapperName_whitespace_free (displayName : jsstring) :
  Forall (fun c => is_whitespace c = false) (deriveWrapperName displayName).
Proof.
  unfold deriveWrapperName. rewrite replace_runs_empty.
  apply Forall_app. split.
  - apply Forall_forall. intros c Hc.
    assert (H : forallb (fun c => negb (is_whitespace c))
                  (lit "com.github.timtebeek.") = true) by reflexivity.
    rewrite forallb_forall in H. now apply negb_true_iff, H.
  - apply Forall_forall. intros c Hc. apply filter_In in Hc.
    now apply negb_true_iff.
Qed.

(** X3: two display names get the same derived wrapper name exactly
    when they are equal up to white space; so [Adopt AssertJ] and
    [AdoptAssertJ] share one name, and names that differ in another
    code unit never do. *)
Theorem deriveWrapperName_collision (s t : jsstring) :
  deriveWrapperName s = deriveWrapperName t
  <-> filter (fun c => negb (is_whitespace c)) s
      = filter (fun c => negb (is_whitespace c)) t.
Proof.
  unfold deriveWrapperName. rewrite !replace_runs_empty. split.
  - apply app_inv_head.
  - now intros ->.
Qed.

(** ** The split *)

(** X4: joining the elements of a split with the separator gives the
    string back; no element holds the separator; there is one element
    more than there are separators. *)
Theorem split_on_join (sep : codeunit) (s : jsstring) :
  join [sep] (split_on sep s) = s
  /\ Forall (fun seg => ~ In sep seg) (split_on sep s)
  /\ List.length (split_on sep s) = S (count_occ N.eq_dec s sep).
Proof.
  induction s as [|c s (IHj & IHf & IHl)]; simpl.
  - repeat split. constructor; [tauto | constructor].
  - destruct (N.eqb_spec c sep) as [->|Hc].
    + destruct (N.eq_dec sep sep) as [_|N]; [|congruence].
      split; [|split].
      * destruct (split_on sep s) as [|seg rest] eqn:E;
          [now apply split_on_not_nil in E|].
        cbn [join]. simpl. now rewrite <- IHj.
      * constructor; [tauto | exact IHf].
      * simpl. now rewrite IHl.
    + destruct (N.eq_dec c sep) as [E|_]; [congruence|].
      destruct (split_on sep s) as [|seg rest] eqn:E;
        [now apply split_on_not_nil in E|].
      split; [|split].
      * destruct rest as [|seg' rest]; cbn [join] in *; simpl; now rewrite <- IHj.
      * inversion IHf as [|? ? Hseg Hrest]; subst.
        constructor; [|exact Hrest].
        intros [E'|Hin]; [congruence | auto].
      * exact IHl.
Qed.

Lemma count_occ_absent (c : codeunit) (s : jsstring) :
  ~ In c s -> count_occ N.eq_dec s c = 0%nat.
Proof. apply count_occ_not_In. Qed.

(** X5: the two parts of the split spell the artifact again, as
    [groupId:artifactId], exactly when the artifact has one colon.
    Without colon the artifactId prints as [undefined]; with more than
    one colon the rest is lost. *)
Theorem splitArtifact_lossless_iff_one_colon (artifact : jsstring) :
  exists groupId artifactId,
    splitArtifact artifact = Normal (groupId, artifactId)
    /\ (to_string groupId ++ colon :: to_string artifactId = artifact
        <-> count_occ N.eq_dec artifact colon = 1%nat).
Proof.
  destruct (in_dec N.eq_dec colon artifact) as [Hin|Hout].
  - destruct (first_occurrence colon artifact Hin) as (g & tail & -> & Hg).
    destruct (leading_segment colon tail) as (a & rest & -> & Ha & Hrest).
    exists (Some g), (Some a).
    split; [now apply splitArtifact_segments|].
    unfold codeunit in *.
    rewrite count_occ_app, (count_occ_cons_eq N.eq_dec _ (eq_refl colon)).
    rewrite count_occ_app, (count_occ_absent colon g Hg), (count_occ_absent colon a Ha).
    simpl to_string. destruct Hrest as [->|(r & ->)].
    + rewrite app_nil_r. simpl. tauto.
    + rewrite (count_occ_cons_eq N.eq_dec _ (eq_refl colon)).
      split; [|discriminate].
      intros E. apply app_inv_head in E. injection E as E.
      rewrite <- (app_nil_r a) in E at 1. apply app_inv_head in E. discriminate E.
  - exists (Some artifact), undefined.
    split; [now apply splitArtifact_without_colon|].
    rewrite (count_occ_absent colon artifact Hout). split; [|discriminate].
    intros E. exfalso. apply Hout. rewrite <- E.
    apply in_or_app. right. now left.
Qed.

(** The Maven POM variant, from the props and the array of the split. *)
Lemma variant_at_maven_split (props : Props) :
  variant_at props 2
  = nth_error
      (variant_of
         (tab_maven (recipeName props)
            (nth_error (split_on colon (artifact props)) 0)
            (nth_error (split_on colon (artifact props)) 1)))
      0.
Proof. reflexivity. Qed.

Lemma splitArtifact_parts (artifact : jsstring) (g a : jsvalue) :
  splitArtifact artifact = Normal (g, a) ->
  nth_error (split_on colon artifact) 0 = g
  /\ nth_error (split_on colon artifact) 1 = a.
Proof.
  unfold splitArtifact. intros E. injection E as <- <-. split; reflexivity.
Qed.

(** X6: the Maven POM variant reads the first two parts of the artifact
    only.  A version after a second colon changes nothing there, while
    the Maven command line prints the artifact as given. *)
Theorem maven_pom_ignores_third_segment (p q : Props) (g a rest : jsstring) :
  recipeName p = recipeName q ->
  ~ In colon g -> ~ In colon a ->
  artifact p = g ++ colon :: a ->
  artifact q = g ++ colon :: a ++ colon :: rest ->
  variant_at p 2 = variant_at q 2
  /\ variant_at p 1 <> variant_at q 1.
Proof.
  intros Hname Hg Ha Hp Hq. split.
  - rewrite !variant_at_maven_split, Hname, Hp, Hq.
    destruct (splitArtifact_parts _ _ _ (splitArtifact_one_colon g a Hg Ha))
      as [-> ->].
    assert (Hrest : colon :: rest = [] \/ exists r, colon :: rest = colon :: r)
      by (right; now exists rest).
    destruct (splitArtifact_parts _ _ _
                (splitArtifact_segments g a (colon :: rest) Hg Ha Hrest))
      as [-> ->].
    reflexivity.
  - rewrite !variant_at_maven_command_line, Hname, Hp, Hq.
    intros E. injection E as E.
    apply (f_equal (@List.length _)) in E. unfold mavenCli in E.
    repeat (rewrite !length_app in E || cbn [List.length] in E).
    lia.
Qed.

Lemma maven_pom_ignores_third_segment_witness :
  variant_at junit6_page 2
  = variant_at
      (config "org.openrewrite.java.testing.junit.JUnit6BestPractices"
         "JUnit 6 Best Practices"
         "org.openrewrite.recipe:rewrite-testing-frameworks:3.0.0")
      2
  /\ variant_at junit6_page 1
     <> variant_at
          (config "org.openrewrite.java.testing.junit.JUnit6BestPractices"
             "JUnit 6 Best Practices"
             "org.openrewrite.recipe:rewrite-testing-frameworks:3.0.0")
          1.
Proof.
  apply (maven_pom_ignores_third_segment junit6_page _
           (lit "org.openrewrite.recipe") (lit "rewrite-testing-frameworks")
           (lit "3.0.0"));
    first [ reflexivity | now apply absent_by_existsb ].
Defined.

(** ** What each prop reaches *)

(** The variants, tab by tab. *)
Lemma compose_tabs (props : Props) :
  compose props
  = Normal
      (List.concat
         (map variant_of
            [ tab_moderne_cli (artifact props) (recipeName props)
                (or_false (requiresYamlInstall props));
              tab_maven_command_line (artifact props) (recipeName props);
              tab_maven (recipeName props)
                (nth_error (split_on colon (artifact props)) 0)
                (nth_error (split_on colon (artifact props)) 1);
              tab_gradle_init_script (artifact props) (recipeName props);
              tab_gradle (artifact props) (recipeName props);
              tab_intelliJ (wrapperName props) (recipeDisplayName props)
                (description props) (recipeName props)
                (or_false (requiresYamlInstall props)) ])).
Proof. reflexivity. Qed.

(** X7: with [requiresYamlInstall] the display name and the two
    overrides reach nothing: props with the same recipe name and
    artifact render the same element tree. *)
Theorem yaml_install_ignores_names (p q : Props) :
  recipeName p = recipeName q ->
  artifact p = artifact q ->
  requiresYamlInstall p = Some true ->
  requiresYamlInstall q = Some true ->
  RunRecipe p = RunRecipe q /\ compose p = compose q.
Proof.
  intros Hname Hartifact Hp Hq.
  assert (E : RunRecipe p = RunRecipe q).
  { unfold RunRecipe. rewrite !render_normal, Hp, Hq, Hname, Hartifact.
    reflexivity. }
  split; [exact E|]. unfold compose. now rewrite E.
Qed.

Lemma yaml_install_ignores_names_witness :
  RunRecipe java21_page
  = RunRecipe
      (with_overrides
         (with_flag
            (config "com.github.timtebeek.Java21ForTests" "Adopt Java 21"
               "org.openrewrite.recipe:rewrite-migrate-java")
            true)
         (Some (lit "org.example.Java21")) (Some (lit "Upgrade the tests.")))
  /\ compose java21_page
     = compose
         (with_overrides
            (with_flag
               (config "com.github.timtebeek.Java21ForTests" "Adopt Java 21"
                  "org.openrewrite.recipe:rewrite-migrate-java")
               true)
            (Some (lit "org.example.Java21")) (Some (lit "Upgrade the tests."))).
Proof.
  apply (yaml_install_ignores_names java21_page); reflexivity.
Defined.

(** X8: the variants from the Maven command line to the Gradle build
    file (positions 1 to 4) depend on the recipe name and the artifact
    only: neither the flag nor the display name nor an override changes
    them.  The Moderne CLI variant depends on the flag besides. *)
Theorem middle_variants_depend_on_recipe_and_artifact (p q : Props) :
  recipeName p = recipeName q ->
  artifact p = artifact q ->
  variant_at p 1 = variant_at q 1
  /\ variant_at p 2 = variant_at q 2
  /\ variant_at p 3 = variant_at q 3
  /\ variant_at p 4 = variant_at q 4
  /\ (or_false (requiresYamlInstall p) = or_false (requiresYamlInstall q) ->
      variant_at p 0 = variant_at q 0).
Proof.
  intros Hname Hartifact. unfold variant_at. rewrite !compose_tabs.
  rewrite Hname, Hartifact.
  repeat (split; [reflexivity|]).
  intros ->. reflexivity.
Qed.

Lemma middle_variants_depend_on_recipe_and_artifact_witness :
  let q :=
    with_flag
      (with_overrides
         (config "org.openrewrite.java.testing.junit.JUnit6BestPractices"
            "Move to JUnit 6"
            "org.openrewrite.recipe:rewrite-testing-frameworks")
         (Some (lit "org.example.JUnit6")) undefined)
      true in
  variant_at junit6_page 1 = variant_at q 1
  /\ variant_at junit6_page 2 = variant_at q 2
  /\ variant_at junit6_page 3 = variant_at q 3
  /\ variant_at junit6_page 4 = variant_at q 4
  /\ (or_false (requiresYamlInstall junit6_page) = or_false (requiresYamlInstall q) ->
      variant_at junit6_page 0 = variant_at q 0).
Proof.
  intros q.
  apply (middle_variants_depend_on_recipe_and_artifact junit6_page q); reflexivity.
Defined.

(** X9: the number of code blocks per variant is fixed: 3, 1, 2, 2, 1,
    and for the IntelliJ variant 1, or 0 with [requiresYamlInstall].
    Every variant but that last one shows a snippet. *)
Theorem snippet_counts_fixed (props : Props) :
  exists vs,
    compose props = Normal vs
    /\ snippet_counts vs
       = [ 3; 1; 2; 2; 1;
           if or_false (requiresYamlInstall props) then 0 else 1 ]%nat.
Proof.
  rewrite compose_tabs. eexists. split; [reflexivity|].
  destruct (or_false (requiresYamlInstall props)); reflexivity.
Qed.

Lemma tabs_name_recipe (A R : jsstring) (g a : jsvalue) (f : bool) :
  Forall (fun v => contains v R)
    (List.concat
       (map variant_of
          [ tab_moderne_cli A R f; tab_maven_command_line A R; tab_maven R g a;
            tab_gradle_init_script A R; tab_gradle A R ])).
Proof.
  cbn. unfold modRun, mavenCli.
  repeat (apply Forall_cons; [unfold contains, body_text; cbn; find_infix|]).
  apply Forall_nil.
Qed.

Lemma intelliJ_names_recipe (w D d R : jsstring) :
  Forall (fun v => contains v R) (variant_of (tab_intelliJ w D d R false)).
Proof.
  cbn. apply Forall_cons; [|apply Forall_nil].
  unfold contains, body_text. cbn. find_infix.
Qed.

(** X10: every way of running the recipe names it.  The bodies of the
    first five variants contain the recipe name as given, and so does
    the IntelliJ one unless [requiresYamlInstall] is set. *)
Theorem every_variant_names_recipe (props : Props) :
  exists vs,
    compose props = Normal vs
    /\ Forall (fun v => contains v (recipeName props)) (firstn 5 vs)
    /\ (or_false (requiresYamlInstall props) = false ->
        Forall (fun v => contains v (recipeName props)) vs).
Proof.
  rewrite compose_tabs. eexists. split; [reflexivity|].
  pose proof (tabs_name_recipe (artifact props) (recipeName props)
                (nth_error (split_on colon (artifact props)) 0)
                (nth_error (split_on colon (artifact props)) 1)
                (or_false (requiresYamlInstall props))) as H.
  split; [exact H|].
  intros Hflag. rewrite Hflag in *.
  exact (proj2 (Forall_app _ _ _)
           (conj H (intelliJ_names_recipe (wrapperName props)
                      (recipeDisplayName props) (description props)
                      (recipeName props)))).
Qed.

(** X11: the artifact is printed as given, with or without colon, in
    the Moderne CLI, Maven command line, Gradle init script and Gradle
    variants; only the Maven POM variant prints the parts of the split. *)
Theorem artifact_printed_verbatim (props : Props) :
  exists v0 v1 v3 v4,
    variant_at props 0 = Some v0
    /\ variant_at props 1 = Some v1
    /\ variant_at props 3 = Some v3
    /\ variant_at props 4 = Some v4
    /\ contains v0 (artifact props)
    /\ contains v1 (artifact props)
    /\ contains v3 (artifact props)
    /\ contains v4 (artifact props).
Proof.
  unfold variant_at. rewrite compose_tabs.
  do 4 eexists.
  do 4 (split; [reflexivity|]).
  unfold contains, body_text, modConfigRecipes, mavenCli.
  destruct (or_false (requiresYamlInstall props));
    repeat split; cbn; find_infix.
Qed.

Lemma lit_line (s : string) :
  existsb (N.eqb 10) (lit s) = false -> ~ In 10 (lit s).
Proof. apply absent_by_existsb. Qed.

(** X12: the three one-line commands stay on one line exactly when the
    recipe name and the artifact hold no line feed: the component adds
    none and removes none. *)
Theorem commands_single_line (artifact recipeName : jsstring) :
  (In 10 (mavenCli artifact recipeName) <-> In 10 artifact \/ In 10 recipeName)
  /\ (In 10 (modRun recipeName) <-> In 10 recipeName)
  /\ (In 10 (modConfigRecipes artifact false) <-> In 10 artifact).
Proof.
  unfold mavenCli, modRun, modConfigRecipes.
  repeat rewrite in_app_iff.
  pose proof (lit_line "mvn -U org.openrewrite.maven:rewrite-maven-plugin:run -Drewrite.recipeArtifactCoordinates=" eq_refl).
  pose proof (lit_line ":RELEASE -Drewrite.activeRecipes=" eq_refl).
  pose proof (lit_line " -Drewrite.exportDatatables=true" eq_refl).
  pose proof (lit_line "mod run ~/workspace/ --recipe " eq_refl).
  pose proof (lit_line "mod config recipes jar install " eq_refl).
  pose proof (lit_line ":LATEST" eq_refl).
  tauto.
Qed.

(** ** Props that a page leaves out *)

Lemma js_or_truthy (v : jsvalue) (fallback : jsstring) :
  truthy v = true -> js_or v fallback = to_string v.
Proof. destruct v as [[|c s]|]; simpl; [discriminate | reflexivity | discriminate]. Qed.

Lemma js_or_falsy (v : jsvalue) (fallback : jsstring) :
  truthy v = false -> js_or v fallback = fallback.
Proof. destruct v as [[|c s]|]; simpl; [reflexivity | discriminate | reflexivity]. Qed.

(** X13: when the page gives an artifact, and a display name or a
    non-empty wrapper name, the component renders what it renders for
    the props in which every string left out is the text [undefined]:
    a missing recipe name or display name is printed, not reported. *)
Theorem RunRecipe_object_prints_undefined (o : PropsObject) (coordinates : jsstring) :
  given_artifact o = Some coordinates ->
  given_recipeDisplayName o <> undefined
  \/ truthy (given_intellijWrapperName o) = true ->
  RunRecipe_object o = RunRecipe (printed_props o coordinates).
Proof.
  intros Hartifact Hname.
  unfold RunRecipe_object, RunRecipe, wrapperName, description, printed_props.
  cbn [recipeName recipeDisplayName artifact intellijWrapperName
       intellijDescription requiresYamlInstall].
  rewrite Hartifact.
  destruct (truthy (given_intellijWrapperName o)) eqn:Hw.
  - now rewrite (js_or_truthy (given_intellijWrapperName o)) by assumption.
  - destruct Hname as [Hname|Hname]; [|discriminate].
    destruct (given_recipeDisplayName o) as [d|]; [|now elim Hname].
    cbn [on_string to_string].
    now rewrite (js_or_falsy (given_intellijWrapperName o)) by assumption.
Qed.

Lemma RunRecipe_object_prints_undefined_witness :
  let o :=
    {| given_recipeName := undefined;
       given_recipeDisplayName := undefined;
       given_artifact := Some (lit "org.openrewrite.recipe:rewrite-testing-frameworks");
       given_intellijWrapperName := Some (lit "org.example.Wrapper");
       given_intellijDescription := undefined;
       given_requiresYamlInstall := None;
       given_showIntelliJ := None |} in
  RunRecipe_object o
  = RunRecipe
      (with_overrides
         (config "undefined" "undefined"
            "org.openrewrite.recipe:rewrite-testing-frameworks")
         (Some (lit "org.example.Wrapper")) undefined).
Proof.
  intros o.
  exact (RunRecipe_object_prints_undefined o
           (lit "org.openrewrite.recipe:rewrite-testing-frameworks") eq_refl
           (or_intror eq_refl)).
Defined.

(** X14: the component throws in two cases only, and then a TypeError:
    the artifact is left out, or the display name is left out while no
    non-empty wrapper name stands in for it.  In every other case it
    returns the six tabs. *)
Theorem RunRecipe_object_throws_iff (o : PropsObject) :
  (RunRecipe_object o = Throw TypeError
   <-> given_artifact o = undefined
       \/ (given_recipeDisplayName o = undefined
           /\ truthy (given_intellijWrapperName o) = false))
  /\ ((exists t, RunRecipe_object o = Normal t
                 /\ map label (variants t) = tab_labels)
      \/ RunRecipe_object o = Throw TypeError).
Proof.
  unfold RunRecipe_object.
  destruct (truthy (given_intellijWrapperName o)) eqn:Hw;
    destruct (given_recipeDisplayName o) as [d|];
    destruct (given_artifact o) as [a|];
    cbn [on_string]; rewrite ?render_normal; unfold undefined.
  all: split;
    [ split; [ intros E; first [discriminate E | auto]
             | intros [E|[E1 E2]]; first [discriminate | reflexivity] ]
    | first [ right; reflexivity | left; eexists; split; reflexivity ] ].
Qed.

(** X15: [showIntelliJ] is not a parameter of the component.  A page
    that sets it to false still gets the IntelliJ tab, in sixth place,
    and the same tree as for any other value of the attribute. *)
Theorem showIntelliJ_is_not_read (o : PropsObject) (t : jsx) :
  given_showIntelliJ o = Some false ->
  RunRecipe_object o = Normal t ->
  (exists v,
     nth_error (variants t) 5 = Some v
     /\ label v = Some (lit "IntelliJ IDEA Ultimate"))
  /\ forall b, RunRecipe_object (with_showIntelliJ o b) = Normal t.
Proof.
  intros _ Ht. split.
  - revert Ht. unfold RunRecipe_object.
    destruct (truthy (given_intellijWrapperName o));
      destruct (given_recipeDisplayName o) as [d|];
      destruct (given_artifact o) as [a|];
      cbn [on_string]; rewrite ?render_normal; intros Ht;
      try discriminate Ht; injection Ht as <-;
      (eexists; split; reflexivity).
  - intros b. rewrite <- Ht. reflexivity.
Qed.

Lemma showIntelliJ_is_not_read_witness :
  exists t,
    RunRecipe_object change_test_method_signatures_page = Normal t
    /\ (exists v,
          nth_error (variants t) 5 = Some v
          /\ label v = Some (lit "IntelliJ IDEA Ultimate"))
    /\ forall b,
         RunRecipe_object (with_showIntelliJ change_test_method_signatures_page b)
         = Normal t.
Proof.
  eexists. split; [reflexivity|].
  apply (showIntelliJ_is_not_read change_test_method_signatures_page);
    reflexivity.
Defined.
